(** * Kedro I/O: [SharedMemoryDataset] and [HDFLocalDataSet]

    A shallow embedding of
    - [kedro/io/shared_memory_dataset.py] (module [SharedMemory]) and
    - [kedro/io/hdf_local.py] (module [HDFLocal]),
    together with the properties of their load/save/exists/describe
    operations.

    Python code that raises is modelled in a state-and-exception monad:
    a computation maps a world to a result (a value or a raised exception)
    and the world it leaves behind.  An exception does not roll the world
    back. *)

From Stdlib Require Import String List Bool Arith Lia.
From stdpp Require Import base option list gmap strings.

Open Scope string_scope.
Set Warnings "-register-all".

(** ** The fragment of the Python runtime the two modules rely on *)

Module Py.

(** An exception object: the names of the classes in the method resolution
    order of its class (the class itself first), the message it was built
    with, and [__cause__] as set by [raise ... from ...]. *)
Inductive exn : Type :=
| Exn (mro : list string) (msg : string) (cause : option exn).

Definition exn_mro (e : exn) : list string :=
  match e with Exn mro _ _ => mro end.


Definition exn_cause (e : exn) : option exn :=
  match e with Exn _ _ cause => cause end.

(** [type(e).__name__] *)
Definition exn_class (e : exn) : string :=
  match exn_mro e with
  | c :: _ => c
  | [] => ""
  end.

(** [isinstance(e, cls)], by class name. *)
Definition isinstance (e : exn) (cls : string) : bool :=
  bool_decide (cls ∈ exn_mro e).

Definition Exception_mro : list string :=
  ["Exception"; "BaseException"; "object"].

Definition AttributeError (msg : string) : exn :=
  Exn ("AttributeError" :: Exception_mro) msg None.

Definition TypeError (msg : string) : exn :=
  Exn ("TypeError" :: Exception_mro) msg None.

Definition RecursionError : exn :=
  Exn ("RecursionError" :: "RuntimeError" :: Exception_mro)
      "maximum recursion depth exceeded" None.

Definition OSError_mro : list string := "OSError" :: Exception_mro.

Definition FileExistsError (msg : string) : exn :=
  Exn ("FileExistsError" :: OSError_mro) msg None.

Definition FileNotFoundError (msg : string) : exn :=
  Exn ("FileNotFoundError" :: OSError_mro) msg None.

Definition NotADirectoryError (msg : string) : exn :=
  Exn ("NotADirectoryError" :: OSError_mro) msg None.

(** The outcome of evaluating an expression or running a statement. *)
Inductive result (A : Type) : Type :=
| Ok (a : A)
| Raise (e : exn).

Arguments Ok {A} a.
Arguments Raise {A} e.

(** Computations over a world of type [W]. *)
Definition M (W A : Type) : Type := W -> result A * W.

Definition ret {W A} (a : A) : M W A := fun w => (Ok a, w).

Definition raise {W A} (e : exn) : M W A := fun w => (Raise e, w).

Definition bind {W A B} (m : M W A) (k : A -> M W B) : M W B :=
  fun w =>
    match m w with
    | (Ok a, w') => k a w'
    | (Raise e, w') => (Raise e, w')
    end.

(** Lifting of a pure evaluation that may raise. *)
Definition eval {W A} (r : result A) : M W A := fun w => (r, w).

(** [try: body except cls as e: handler e].  Exceptions that are not
    instances of [cls] pass through. *)
Definition try_except {W A} (cls : string) (body : M W A)
    (handler : exn -> M W A) : M W A :=
  fun w =>
    match body w with
    | (Ok a, w') => (Ok a, w')
    | (Raise e, w') =>
        if isinstance e cls then handler e w' else (Raise e, w')
    end.

(** [s.startswith(prefix)] *)
Definition startswith (s prefix : string) : bool := String.prefix prefix s.



End Py.

Import Py.

Declare Scope py_scope.
Delimit Scope py_scope with py.
Notation "'do' x <- m ; k" := (bind m (fun x => k))
  (at level 10, x name, m at level 100, k at level 200) : py_scope.
Open Scope py_scope.

(** ** [kedro/io/shared_memory_dataset.py] *)

Module SharedMemory.

(** A manager process and a container hosted by one. *)
Definition manager : Type := nat.
Definition handle : Type := nat.

(** An artifact handed to [save].  The model keeps what the code looks at:
    the class of the value ([__module__] and [__qualname__]), how the
    metaclass of that class prints it, and the outcome of [pickle.dumps] on
    the value.  [art_metaclass_str] is [None] for a class whose metaclass
    leaves printing to [type] (every class made by a plain [class]
    statement), and [Some s] when the metaclass defines [__str__] or
    [__repr__] and prints the class as [s]; [EnumMeta], for one, prints an
    enumeration [Color] as [<enum 'Color'>]. *)
Record Artifact : Type := {
  art_module : string;
  art_qualname : string;
  art_metaclass_str : option string;
  art_pickle : result string;
}.

(** [type.__repr__] on a class. *)
Definition type_repr (module qualname : string) : string :=
  "<class '"
    ++ (if decide (module = "builtins")
        then qualname
        else module ++ "." ++ qualname)
    ++ "'>".

(** [str(data.__class__)]: [str] of a class is looked up on its metaclass,
    and is [type.__repr__] unless the metaclass overrides it. *)
Definition str_class (data : Artifact) : string :=
  match art_metaclass_str data with
  | Some s => s
  | None => type_repr (art_module data) (art_qualname data)
  end.

(** [pickle.dumps(data)] *)
Definition pickle_dumps {W} (data : Artifact) : M W string :=
  eval (art_pickle data).

(** Values an attribute lookup can produce. *)
Inductive pyval : Type :=
| VNone
| VBool (b : bool)
| VHandle (h : handle)
| VClassAttr (name : string)
| VAttr (owner : pyval) (name : string).

(** A request sent to a manager process. *)
Inductive call : Type :=
| CallMemoryDataset (m : manager)
| CallLoad (h : handle)
| CallSave (h : handle) (data : Artifact).

(** The world outside the proxy: the containers hosted by the managers
    (each with its owner and its content, if any), the requests sent so far,
    the faults of the transport (decided by the requests so far and the
    request being sent), the attribute lookup of the runtime on objects other
    than [None] and the proxy itself, and the number of Python frames left
    before [RecursionError]. *)
Record World : Type := {
  heap : list (manager * option Artifact);
  calls : list call;
  fault : list call -> call -> option exn;
  obj_attr : pyval -> string -> result pyval;
  frames : nat;
}.

Definition set_heap (hp : list (manager * option Artifact)) (w : World) : World :=
  {| heap := hp; calls := calls w; fault := fault w;
     obj_attr := obj_attr w; frames := frames w |}.

Definition log (c : call) (w : World) : World :=
  {| heap := heap w; calls := calls w ++ [c]; fault := fault w;
     obj_attr := obj_attr w; frames := frames w |}.

(** Sending request [c]: it is recorded, and either the transport fails or
    the manager serves it. *)
Definition transport {A} (c : call) (serve : M World A) : M World A :=
  fun w =>
    match fault w (calls w) c with
    | Some e => (Raise e, log c w)
    | None => serve (log c w)
    end.

Definition DatasetError (msg : string) (cause : option exn) : exn :=
  Exn ("DatasetError" :: Exception_mro) msg cause.

Definition RemoteError (msg : string) : exn :=
  Exn ("RemoteError" :: Exception_mro) msg None.

(** Modelled from the spec: the remote container is kedro's [MemoryDataset]
    hosted by a [SyncManager]; neither is part of these sources.  The spec
    describes [manager.MemoryDataset()] as constructing and returning a new
    remotely-addressable mutable container ("a mutable holder for one
    artifact"), which exposes [load()] and [save(artifact)]. *)
Definition manager_MemoryDataset (m : manager) : M World handle :=
  transport (CallMemoryDataset m)
    (fun w => (Ok (length (heap w)), set_heap (heap w ++ [(m, None)]) w)).

(** Modelled from the spec: [load()] of the remote container returns the
    artifact it holds; kedro's [MemoryDataset] raises when nothing has been
    saved to it yet. *)
Definition container_load (h : handle) : M World Artifact :=
  transport (CallLoad h)
    (fun w =>
       match heap w !! h with
       | Some (_, Some data) => (Ok data, w)
       | Some (_, None) =>
           (Raise (DatasetError "Data for MemoryDataset has not been saved yet." None), w)
       | None => (Raise (RemoteError "no such container"), w)
       end).

(** Modelled from the spec: [save(artifact)] of the remote container makes
    the artifact its content. *)
Definition container_save (h : handle) (data : Artifact) : M World unit :=
  transport (CallSave h data)
    (fun w =>
       match heap w !! h with
       | Some (m, _) => (Ok tt, set_heap (<[h := (m, Some data)]> (heap w)) w)
       | None => (Raise (RemoteError "no such container"), w)
       end).

(** Names [dir(None)] lists. *)
Definition NoneType_dir : list string :=
  ["__bool__"; "__class__"; "__delattr__"; "__dir__"; "__doc__"; "__eq__";
   "__format__"; "__ge__"; "__getattribute__"; "__getstate__"; "__gt__";
   "__hash__"; "__init__"; "__init_subclass__"; "__le__"; "__lt__"; "__ne__";
   "__new__"; "__reduce__"; "__reduce_ex__"; "__repr__"; "__setattr__";
   "__sizeof__"; "__str__"; "__subclasshook__"].

(** [getattr(v, name)] for a value that is not the proxy. *)
Definition py_getattr (w : World) (v : pyval) (name : string) : result pyval :=
  match v with
  | VNone =>
      if bool_decide (name ∈ NoneType_dir) then Ok (VAttr VNone name)
      else Raise (AttributeError
                    ("'NoneType' object has no attribute '" ++ name ++ "'"))
  | _ => obj_attr w v name
  end.

(** The instance: [None] in a field means the attribute is not (yet) in the
    instance's [__dict__], as for an object made by [__new__] alone. *)
Record SharedMemoryDataset : Type := {
  _EPHEMERAL : option bool;
  shared_memory_dataset : option (option handle);
}.

(** The value of [self.shared_memory_dataset]: [None] or a container. *)
Definition target_value (t : option handle) : pyval :=
  match t with Some h => VHandle h | None => VNone end.

(** Names the class body leaves in the [__dict__] of the class.
    ([__qualname__] is not among them: [type.__new__] takes it out of the
    namespace, and an instance does not see the one of [type].) *)
Definition class_body : list string :=
  ["__module__"; "__doc__"; "__init__"; "set_manager";
   "__getattr__"; "_load"; "load"; "_save"; "save"; "_describe"].

Section Lookup.

(** Names the base classes ([AbstractDataset], [object]) provide, and the
    descriptors [type.__new__] adds to the class ([__dict__],
    [__weakref__]). *)
Variable inherited : list string.

Definition instance_dict (self : SharedMemoryDataset) (name : string)
  : option pyval :=
  if decide (name = "_EPHEMERAL") then VBool <$> _EPHEMERAL self
  else if decide (name = "shared_memory_dataset") then
    target_value <$> shared_memory_dataset self
  else None.

(** The default lookup, [object.__getattribute__]: the instance's
    [__dict__], then the class and its bases. *)
Definition normal_lookup (self : SharedMemoryDataset) (name : string)
  : option pyval :=
  match instance_dict self name with
  | Some v => Some v
  | None =>
      if bool_decide (name ∈ (class_body ++ inherited)%list)
      then Some (VClassAttr name)
      else None
  end.

(** [__getattr__(self, name)]; [self_attr] evaluates [self.<attribute>]. *)
Definition __getattr__ (self_attr : string -> result pyval) (w : World)
    (name : string) : result pyval :=
  if decide (name = "__setstate__") then Raise (AttributeError "")
  else
    match self_attr "shared_memory_dataset" with
    | Ok target => py_getattr w target name
    | Raise e => Raise e
    end.

(** [getattr(self, name)] with [fr] frames left: the default lookup, and
    [__getattr__] (which takes a frame) when that finds nothing. *)
Fixpoint getattr_ (fr : nat) (w : World) (self : SharedMemoryDataset)
    (name : string) : result pyval :=
  match normal_lookup self name with
  | Some v => Ok v
  | None =>
      match fr with
      | 0 => Raise RecursionError
      | S fr' => __getattr__ (getattr_ fr' w self) w name
      end
  end.

Definition self_attr (self : SharedMemoryDataset) (name : string)
  : M World pyval :=
  fun w => (getattr_ (frames w) w self name, w).

(** [target.<method>(...)] where the call itself is [invoke] on a
    container. *)
Definition call_method {A} (target : pyval) (method : string)
    (invoke : handle -> M World A) : M World A :=
  match target with
  | VHandle h => invoke h
  | _ =>
      fun w =>
        match py_getattr w target method with
        | Raise e => (Raise e, w)
        | Ok _ => (Raise (TypeError "object is not callable"), w)
        end
  end.

Definition __init__ (mgr : option manager) : M World SharedMemoryDataset :=
  match mgr with
  | Some m =>
      do h <- manager_MemoryDataset m;
      ret {| _EPHEMERAL := Some true; shared_memory_dataset := Some (Some h) |}
  | None =>
      ret {| _EPHEMERAL := Some true; shared_memory_dataset := Some None |}
  end.

Definition set_manager (self : SharedMemoryDataset) (m : manager)
  : M World SharedMemoryDataset :=
  do h <- manager_MemoryDataset m;
  ret {| _EPHEMERAL := _EPHEMERAL self;
         shared_memory_dataset := Some (Some h) |}.

Definition _load (self : SharedMemoryDataset) : M World Artifact :=
  do target <- self_attr self "shared_memory_dataset";
  call_method target "load" container_load.

Definition load := _load.

Definition not_serialisable (data : Artifact) : string :=
  str_class data
    ++ " cannot be serialised. ParallelRunner "
    ++ "implicit memory datasets can only be used with serialisable data".

Definition _save (self : SharedMemoryDataset) (data : Artifact)
  : M World unit :=
  try_except "Exception"
    (do target <- self_attr self "shared_memory_dataset";
     call_method target "save" (fun h => container_save h data))
    (fun exc =>
       do _ <- try_except "Exception" (pickle_dumps data)
                 (fun serialisation_exc =>
                    raise (DatasetError (not_serialisable data)
                             (Some serialisation_exc)));
       raise exc).

Definition save := _save.

Definition _describe (self : SharedMemoryDataset) : gmap string pyval := ∅.

(** A caller's use of the proxy: attaching, loading, saving.  The caller
    goes on after an exception. *)
Inductive action : Type :=
| DoSetManager (m : manager)
| DoLoad
| DoSave (data : Artifact).

Definition perform (st : SharedMemoryDataset * World) (a : action)
  : SharedMemoryDataset * World :=
  let (self, w) := st in
  match a with
  | DoSetManager m =>
      match set_manager self m w with
      | (Ok self', w') => (self', w')
      | (Raise _, w') => (self, w')
      end
  | DoLoad => (self, snd (load self w))
  | DoSave data => (self, snd (save self data w))
  end.

Definition history (acts : list action) (st : SharedMemoryDataset * World)
  : SharedMemoryDataset * World :=
  fold_left perform acts st.

End Lookup.

(** The exception [_save] ends with once the [try] has raised the
    [Exception] [exc]: what its handler raises. *)
Definition diagnosis (data : Artifact) (exc : exn) : exn :=
  match art_pickle data with
  | Ok _ => exc
  | Raise pe =>
      if isinstance pe "Exception"
      then DatasetError (not_serialisable data) (Some pe)
      else pe
  end.

(** The world once manager [m] has served a [MemoryDataset()] request: the
    request is recorded and the manager hosts one more, empty, container. *)
Definition hosted (m : manager) (w : World) : World :=
  set_heap (heap w ++ [(m, None)]) (log (CallMemoryDataset m) w).

End SharedMemory.

(** ** [kedro/io/hdf_local.py] *)

Module HDFLocal.

(** *** Paths, as [pathlib] keeps them on POSIX *)

(** A parsed path: the root ([""] for a relative path, ["/"] or ["//"])
    and the components after it. *)
Record Path : Type := {
  root : string;
  parts : list string;
}.

#[export] Instance Path_eq_dec : EqDecision Path.
Proof. solve_decision. Defined.

Definition slash : Ascii.ascii := Ascii.ascii_of_nat 47.

(** [s.split("/")], with [cur] the component being read. *)
Fixpoint split_slash (s : string) (cur : string) : list string :=
  match s with
  | EmptyString => [cur]
  | String c s' =>
      if Ascii.eqb c slash then cur :: split_slash s' ""
      else split_slash s' (cur ++ String c "")
  end.

Fixpoint leading_slashes (s : string) : nat :=
  match s with
  | String c s' => if Ascii.eqb c slash then S (leading_slashes s') else 0
  | EmptyString => 0
  end.

(** [Path(s)]: empty and ["."] components are dropped; exactly two leading
    slashes are kept as the root ["//"]. *)
Definition Path_of_str (s : string) : Path :=
  {| root := match leading_slashes s with
             | 0 => ""
             | 2 => "//"
             | _ => "/"
             end;
     parts := filter (fun seg => seg ≠ "" ∧ seg ≠ ".") (split_slash s "") |}.

Fixpoint join_slash (l : list string) : string :=
  match l with
  | [] => ""
  | [x] => x
  | x :: l' => x ++ "/" ++ join_slash l'
  end.

(** [str(p)] *)
Definition str_path (p : Path) : string :=
  match root p, parts p with
  | EmptyString, [] => "."
  | r, l => r ++ join_slash l
  end.

(** [p.parent] *)
Definition parent (p : Path) : Path :=
  {| root := root p; parts := removelast (parts p) |}.

Definition is_absolute (p : Path) : bool :=
  negb (bool_decide (root p = "")).

(** [p.absolute()], with the components of the current directory. *)
Definition absolute (cwd : list string) (p : Path) : Path :=
  if is_absolute p then p
  else {| root := "/"; parts := (cwd ++ parts p)%list |}.

(** *** The file system *)

Inductive node : Type :=
| Dir
| File (content : string).

(** Entries by the components of their absolute path.  The root directory
    always exists.  A component is the name of an entry: the model has no
    links and does not follow [..], so where a path leads is what it says
    for the paths without a [..] component. *)
Definition lookup_node (fs : gmap (list string) node) (k : list string)
  : option node :=
  match k with
  | [] => Some Dir
  | _ => fs !! k
  end.

Definition is_dir (fs : gmap (list string) node) (k : list string) : bool :=
  match lookup_node fs k with
  | Some Dir => true
  | _ => false
  end.

Definition is_file (fs : gmap (list string) node) (k : list string) : bool :=
  match lookup_node fs k with
  | Some (File _) => true
  | _ => false
  end.

(** The file system is a tree: what holds an entry is a directory. *)
Definition tree (fs : gmap (list string) node) : Prop :=
  forall k nd, lookup_node fs k = Some nd ->
               lookup_node fs (removelast k) = Some Dir.

(** [os.mkdir(p)] for the path [p] made of [base] (the root, or the current
    directory for a relative path) and the components [rel].  With no
    component the path is ["/"] or ["."], which names [base] itself and
    creates nothing. *)
Definition os_mkdir (fs : gmap (list string) node) (base rel : list string)
  : result (gmap (list string) node) :=
  match lookup_node fs (base ++ rel)%list with
  | Some _ => Raise (FileExistsError "File exists")
  | None =>
      match rel with
      | [] => Raise (FileNotFoundError "No such file or directory")
      | _ =>
          match lookup_node fs (base ++ removelast rel)%list with
          | None => Raise (FileNotFoundError "No such file or directory")
          | Some (File _) => Raise (NotADirectoryError "Not a directory")
          | Some Dir => Ok (<[(base ++ rel)%list := Dir]> fs)
          end
      end
  end.

(** [Path.mkdir(parents=False, exist_ok=True)] *)
Definition mkdir_exist_ok (fs : gmap (list string) node)
    (base rel : list string) : result (gmap (list string) node) :=
  match os_mkdir fs base rel with
  | Ok fs' => Ok fs'
  | Raise e =>
      if isinstance e "FileNotFoundError" then Raise e
      else if is_dir fs (base ++ rel)%list then Ok fs
      else Raise e
  end.

(** [Path.mkdir(parents=True, exist_ok=True)].  The components [rk] are
    given last component first: the recursion goes to [self.parent], and
    stops where [self.parent == self]. *)
Fixpoint mkdir_parents (base : list string) (rk : list string)
    (fs : gmap (list string) node) : result (gmap (list string) node) :=
  match os_mkdir fs base (rev rk) with
  | Ok fs' => Ok fs'
  | Raise e =>
      if isinstance e "FileNotFoundError" then
        match rk with
        | [] => Raise e
        | _ :: rparent =>
            match mkdir_parents base rparent fs with
            | Ok fs1 => mkdir_exist_ok fs1 base (rev rk)
            | Raise e' => Raise e'
            end
        end
      else if is_dir fs (base ++ rev rk)%list then Ok fs
      else Raise e
  end.


(** *** The dataset *)

(** An option value of [load_args] / [save_args]; the dataset never looks
    inside. *)
Inductive value : Type :=
| VNone
| VBool (b : bool)
| VInt (z : Z)
| VStr (s : string).

(** A [pandas.DataFrame]: named columns. *)
Definition DataFrame : Type := list (string * list Z).

(** Modelled from the spec: [Version] is declared in [kedro.io.core], which
    is not part of these sources.  The spec: "a pair (load_version:
    Optional<Timestamp>, save_version: Optional<Timestamp>)". *)
Record Version : Type := {
  load_version : option string;
  save_version : option string;
}.

Record HDFLocalDataSet : Type := {
  _filepath : Path;
  _version : option Version;
  _key : string;
  _load_args : gmap string value;
  _save_args : gmap string value;
}.

(** [kedro.io.core.DataSetError], a subclass of [Exception]. *)
Definition DataSetError (msg : string) : exn :=
  Exn ("DataSetError" :: Exception_mro) msg None.

(** [{**a, **b}]: the entries of [b] win. *)
Definition dict_merge (a b : gmap string value) : gmap string value := b ∪ a.

Definition __init__ (filepath : string) (key : string)
    (load_args save_args : option (gmap string value))
    (version : option Version) : HDFLocalDataSet :=
  let default_load_args : gmap string value := ∅ in
  let default_save_args : gmap string value := ∅ in
  {| _filepath := Path_of_str filepath;
     _version := version;
     _key := key;
     _load_args :=
       match load_args with
       | Some load_args => dict_merge default_load_args load_args
       | None => default_load_args
       end;
     _save_args :=
       match save_args with
       | Some save_args => dict_merge default_load_args save_args
       | None => default_save_args
       end |}.

Section Dataset.

(** What the collaborators keep for themselves (a clock, a cached save
    version, a log, ...). *)
Context {B : Type}.

Record World : Type := {
  fs : gmap (list string) node;
  cwd : list string;
  ext : B;
}.

Definition set_fs (fs' : gmap (list string) node) (w : World) : World :=
  {| fs := fs'; cwd := cwd w; ext := ext w |}.

(** The methods [HDFLocalDataSet] inherits from
    [kedro.io.core.AbstractVersionedDataSet], which is not part of these
    sources. *)
Class AbstractVersionedDataSet : Type := {
  _get_load_path : HDFLocalDataSet -> M World Path;
  _get_save_path : HDFLocalDataSet -> M World Path;
  _check_paths_consistency : HDFLocalDataSet -> Path -> Path -> M World unit;
}.

(** The format adapter: [pd.read_hdf(path, key=..., **kwargs)],
    [data.to_hdf(path, key=..., **kwargs)], and the keys of
    [HDFStore(path, mode="r")]. *)
Class Pandas : Type := {
  read_hdf : Path -> string -> gmap string value -> M World DataFrame;
  to_hdf : DataFrame -> string -> string -> gmap string value -> M World unit;
  HDFStore_keys : Path -> M World (list string);
}.

Context `{AbstractVersionedDataSet} `{Pandas}.

(** A call [f(..., key=k, **kwargs)]: a second value for [key] is a
    [TypeError] at the call, before [f] runs. *)
Definition call_with_key {A} (fname : string) (kwargs : gmap string value)
    (f : M World A) : M World A :=
  match kwargs !! "key" with
  | Some _ =>
      raise (TypeError
               (fname ++ "() got multiple values for keyword argument 'key'"))
  | None => f
  end.

(** The entry of the file system a path denotes. *)
Definition fs_base (w : World) (p : Path) : list string :=
  if is_absolute p then [] else cwd w.

Definition fs_key (w : World) (p : Path) : list string :=
  (fs_base w p ++ parts p)%list.

(** [p.mkdir(parents=True, exist_ok=True)] *)
Definition Path_mkdir (p : Path) : M World unit :=
  fun w =>
    match mkdir_parents (fs_base w p) (rev (parts p)) (fs w) with
    | Ok fs' => (Ok tt, set_fs fs' w)
    | Raise e => (Raise e, w)
    end.

(** [p.is_file()] *)
Definition Path_is_file (p : Path) : M World bool :=
  fun w => (Ok (is_file (fs w) (fs_key w p)), w).

(** [p.absolute()] *)
Definition Path_absolute (p : Path) : M World Path :=
  fun w => (Ok (absolute (cwd w) p), w).

Definition _load (self : HDFLocalDataSet) : M World DataFrame :=
  do load_path <- _get_load_path self;
  call_with_key "read_hdf" (_load_args self)
    (read_hdf load_path (_key self) (_load_args self)).

Definition _save (self : HDFLocalDataSet) (data : DataFrame) : M World unit :=
  do save_path <- _get_save_path self;
  do _ <- Path_mkdir (parent save_path);
  do _ <- call_with_key "to_hdf" (_save_args self)
            (to_hdf data (str_path save_path) (_key self) (_save_args self));
  do load_path <- _get_load_path self;
  do abs_load <- Path_absolute load_path;
  do abs_save <- Path_absolute save_path;
  _check_paths_consistency self abs_load abs_save.

Definition key_with_slash (self : HDFLocalDataSet) : string :=
  if startswith (_key self) "/" then _key self else "/" ++ _key self.

(** Modelled from the spec: [_check_paths_consistency] is defined in
    [kedro.io.core], which is not part of these sources.  The spec,
    [check_consistency(load_path, save_path)]: "If a load_version was not
    explicitly pinned and load_path != save_path, fail with
    ConsistencyError [...]. If load_version was pinned, this check is
    skipped unconditionally." *)
Definition pinned (self : HDFLocalDataSet) : bool :=
  match _version self with
  | Some v => bool_decide (is_Some (load_version v))
  | None => false
  end.

(** Modelled from the spec: the error [check_consistency] fails with,
    raised in [kedro.io.core]; the spec names it [ConsistencyError] and
    gives it no message. *)
Definition ConsistencyError : exn :=
  Exn ("ConsistencyError" :: Exception_mro) "" None.

(** Modelled from the spec: [check_consistency(load_path, save_path)] as
    quoted above, for the method [_check_paths_consistency] of
    [kedro.io.core]. *)
Definition check_consistency (self : HDFLocalDataSet)
    (load_path save_path : Path) : M World unit :=
  if pinned self then ret tt
  else if decide (load_path ≠ save_path) then raise ConsistencyError
  else ret tt.

Definition _exists (self : HDFLocalDataSet) : M World bool :=
  do path <- try_except "DataSetError"
               (do path <- _get_load_path self; ret (Some path))
               (fun _ => ret None);
  match path with
  | None => ret false
  | Some path =>
      do is_a_file <- Path_is_file path;
      if (is_a_file : bool) then
        do keys <- HDFStore_keys path;
        if bool_decide (key_with_slash self ∈ keys) then ret true
        else ret false
      else ret false
  end.

End Dataset.

End HDFLocal.

(** * Concrete worlds and values *)

Module SharedMemoryExamples.

Import SharedMemory.

(** A value of class [socket.socket], which [pickle] refuses. *)
Definition a_socket : Artifact :=
  {| art_module := "socket"; art_qualname := "socket";
     art_metaclass_str := None;
     art_pickle := Raise (TypeError "cannot pickle 'socket' object") |}.



(** A list, which pickles. *)
Definition a_list : Artifact :=
  {| art_module := "builtins"; art_qualname := "list";
     art_metaclass_str := None;
     art_pickle := Ok "\x80\x04]\x94." |}.

Definition plain_attr (v : pyval) (name : string) : result pyval :=
  Ok (VAttr v name).

(** No container yet, a transport without faults. *)
Definition calm : World :=
  {| heap := []; calls := []; fault := fun _ _ => None;
     obj_attr := plain_attr; frames := 1000 |}.

(** One empty container hosted by manager 7, and a transport on which
    every request fails with [e]. *)
Definition failing (e : exn) : World :=
  {| heap := [(7, None)]; calls := []; fault := fun _ _ => Some e;
     obj_attr := plain_attr; frames := 1000 |}.

Definition ConnectionResetError : exn :=
  Exn ["ConnectionResetError"; "ConnectionError"; "OSError"; "Exception";
       "BaseException"; "object"] "Connection reset by peer" None.

(** The proxy [SharedMemoryDataset()] makes. *)
Definition unattached : SharedMemoryDataset :=
  {| _EPHEMERAL := Some true; shared_memory_dataset := Some None |}.

(** A proxy bound to container 0. *)
Definition attached : SharedMemoryDataset :=
  {| _EPHEMERAL := Some true; shared_memory_dataset := Some (Some 0) |}.

End SharedMemoryExamples.

Module HDFLocalExamples.

Import HDFLocal.

(** The collaborators of these examples keep a log of the adapter calls. *)
Definition note (s : string) (w : @World (list string)) : @World (list string) :=
  {| fs := fs w; cwd := cwd w; ext := (ext w ++ [s])%list |}.

(** Inherited methods that resolve to fixed paths (or fail to resolve the
    load path), with the consistency check of the spec. *)
Definition resolving (load_path : result Path) (save_path : Path)
  : @AbstractVersionedDataSet (list string) :=
  {| _get_load_path := fun _ => eval load_path;
     _get_save_path := fun _ => ret save_path;
     _check_paths_consistency := check_consistency |}.

Definition a_frame : DataFrame := [("col1", [1; 2]%Z); ("col2", [4; 5]%Z)].

(** An adapter that writes a file holding the key, reads a fixed frame, and
    lists the key a file holds. *)
Definition pandas : @Pandas (list string) :=
  {| read_hdf := fun path key kwargs w => (Ok a_frame, note "read_hdf" w);
     to_hdf := fun data path key kwargs w =>
       (Ok tt,
        note "to_hdf"
          (set_fs (<[fs_key w (Path_of_str path) := File key]> (fs w)) w));
     HDFStore_keys := fun path w =>
       (match fs w !! fs_key w path with
        | Some (File key) => Ok ["/" ++ key]
        | _ => Raise (FileNotFoundError "No such file or directory")
        end, note "HDFStore" w) |}.

Definition empty_disk : @World (list string) :=
  {| fs := ∅; cwd := ["home"]; ext := [] |}.

(** A disk that holds version [2019-01-01] of the data set, saved under the
    key [test_hdf_key]. *)
Definition saved_disk : @World (list string) :=
  {| fs := {[ ["data"] := Dir;
              ["data"; "test.hdf"] := Dir;
              ["data"; "test.hdf"; "2019-01-01"] := Dir;
              ["data"; "test.hdf"; "2019-01-01"; "test.hdf"]
                := File "test_hdf_key" ]};
     cwd := ["home"]; ext := [] |}.

Definition v1 : Path := Path_of_str "/data/test.hdf/2019-01-01/test.hdf".

Definition data_set : HDFLocalDataSet :=
  __init__ "/data/test.hdf" "test_hdf_key" None None None.

(** The same data set, its key given with the leading slash. *)
Definition slash_key_data_set : HDFLocalDataSet :=
  __init__ "/data/test.hdf" "/test_hdf_key" None None None.

Definition not_found : exn := DataSetError "Did not find any versions".

End HDFLocalExamples.

(** * More values, and what stays true of an instance *)

Module SharedMemoryMoreDefs.

Import SharedMemory.

(** [KeyboardInterrupt], which is not an [Exception]. *)
Definition KeyboardInterrupt : exn :=
  Exn ["KeyboardInterrupt"; "BaseException"; "object"] "" None.

(** A value whose pickling is interrupted. *)
Definition an_interrupting : Artifact :=
  {| art_module := "builtins"; art_qualname := "dict";
     art_metaclass_str := None;
     art_pickle := Raise KeyboardInterrupt |}.

(** The instance is initialised: both attributes [__init__] sets are in its
    [__dict__], [_EPHEMERAL] is [True], and a bound container exists. *)
Definition initialised (st : SharedMemoryDataset * World) : Prop :=
  _EPHEMERAL (fst st) = Some true
  /\ exists t, shared_memory_dataset (fst st) = Some t
               /\ forall h, t = Some h -> h < length (heap (snd st)).

End SharedMemoryMoreDefs.

Module HDFLocalMoreDefs.

Import HDFLocal.

#[export] Instance node_eq_dec : EqDecision node.
Proof. solve_decision. Defined.

(** A value of the mapping [_describe] returns. *)
Inductive described : Type :=
| DPath (p : Path)
| DStr (s : string)
| DDict (d : gmap string value)
| DVersion (v : option Version).

(** [HDFLocalDataSet._describe] *)
Definition _describe (self : HDFLocalDataSet) : gmap string described :=
  <["filepath" := DPath (_filepath self)]>
    (<["key" := DStr (_key self)]>
       (<["load_args" := DDict (_load_args self)]>
          (<["save_args" := DDict (_save_args self)]>
             (<["version" := DVersion (_version self)]> ∅)))).

(** The dataset with another key. *)
Definition with_key (key : string) (self : HDFLocalDataSet) : HDFLocalDataSet :=
  {| _filepath := _filepath self; _version := _version self; _key := key;
     _load_args := _load_args self; _save_args := _save_args self |}.

(** A disk on which [/data] is a regular file. *)
Definition blocked_disk : @World (list string) :=
  {| fs := {[ ["data"] := File "not a directory" ]}; cwd := ["home"]; ext := [] |}.

Definition PermissionError : exn :=
  Exn ("PermissionError" :: OSError_mro) "Permission denied" None.

(** A dataset whose save options name [key]. *)
Definition keyed_data_set : HDFLocalDataSet :=
  __init__ "/data/test.hdf" "test_hdf_key"
    (Some {["key" := VStr "other"]}) (Some {["key" := VStr "other"]}) None.

End HDFLocalMoreDefs.

(** * Properties of [SharedMemoryDataset] *)

Module SharedMemoryProps.

Import SharedMemory SharedMemoryExamples.









(** Reading [self.shared_memory_dataset] once [__init__] or [set_manager]
    has bound it. *)
Lemma instance_dict_smd (self : SharedMemoryDataset) :
  instance_dict self "shared_memory_dataset"
  = target_value <$> shared_memory_dataset self.
Proof. reflexivity. Qed.

Lemma self_attr_bound inherited self t w :
  shared_memory_dataset self = Some t ->
  self_attr inherited self "shared_memory_dataset" w = (Ok (target_value t), w).
Proof.
  intros Hb. unfold self_attr.
  assert (normal_lookup inherited self "shared_memory_dataset"
          = Some (target_value t)) as Hn.
  { unfold normal_lookup. by rewrite instance_dict_smd, Hb. }
  destruct (frames w); simpl; by rewrite Hn.
Qed.

(** The statement in the [try] of [_save]. *)
Lemma save_attempt_bound inherited self h data w :
  shared_memory_dataset self = Some (Some h) ->
  bind (self_attr inherited self "shared_memory_dataset")
       (fun target => call_method target "save" (fun h => container_save h data)) w
  = container_save h data w.
Proof.
  intros Hb. unfold bind. by rewrite (self_attr_bound _ _ _ _ Hb).
Qed.

Lemma save_attempt_unbound inherited self data w :
  shared_memory_dataset self = Some None ->
  bind (self_attr inherited self "shared_memory_dataset")
       (fun target => call_method target "save" (fun h => container_save h data)) w
  = (Raise (AttributeError "'NoneType' object has no attribute 'save'"), w).
Proof.
  intros Hb. unfold bind. by rewrite (self_attr_bound _ _ _ _ Hb).
Qed.

Lemma save_after_failure inherited self data w e w' :
  bind (self_attr inherited self "shared_memory_dataset")
       (fun target => call_method target "save" (fun h => container_save h data)) w
  = (Raise e, w') ->
  save inherited self data w
  = (Raise (if isinstance e "Exception" then diagnosis data e else e), w').
Proof.
  intros Hf. unfold save, _save, try_except at 1. rewrite Hf.
  destruct (isinstance e "Exception"); [|done].
  unfold diagnosis, bind, try_except, pickle_dumps, eval, raise.
  destruct (art_pickle data) as [bytes|pe]; [done|].
  by destruct (isinstance pe "Exception").
Qed.



(** C2.  When the save on the bound container raises and [pickle.dumps] on
    the artifact succeeds, [save] raises the very exception the container
    raised: same class, message and cause. *)
Theorem save_reraises_remote_error inherited self h data w e w' bytes :
  shared_memory_dataset self = Some (Some h) ->
  container_save h data w = (Raise e, w') ->
  art_pickle data = Ok bytes ->
  save inherited self data w = (Raise e, w').
Proof.
  intros Hb Hf Hp.
  rewrite (save_after_failure inherited self data w e w').
  - unfold diagnosis. rewrite Hp. by destruct (isinstance e "Exception").
  - by rewrite (save_attempt_bound _ _ h).
Qed.


Lemma save_reraises_remote_error_witness :
  save [] attached a_list (failing ConnectionResetError)
  = (Raise ConnectionResetError,
     log (CallSave 0 a_list) (failing ConnectionResetError)).
Proof.
  apply (save_reraises_remote_error [] attached 0 a_list
           (failing ConnectionResetError) ConnectionResetError
           (log (CallSave 0 a_list) (failing ConnectionResetError))
           "\x80\x04]\x94.");
    reflexivity.
Defined.

(** C3, as amended.  On the proxy [SharedMemoryDataset()] makes, never
    attached, [load] and [save] always raise and send nothing to a manager
    (the world, with its record of requests, is unchanged): [load] raises
    the [AttributeError] of looking [load] up on [None]; [save] raises the
    [AttributeError] of looking [save] up on [None] when the artifact
    pickles, and what the handler makes of a pickling failure otherwise (the
    [DatasetError] of an unserialisable artifact when that failure is an
    [Exception]). *)
Theorem unattached_proxy_fails inherited (w : World) (data : Artifact) :
  let self := {| _EPHEMERAL := Some true; shared_memory_dataset := Some None |} in
  __init__ None w = (Ok self, w)
  /\ load inherited self w
     = (Raise (AttributeError "'NoneType' object has no attribute 'load'"), w)
  /\ save inherited self data w
     = (Raise (match art_pickle data with
               | Ok _ => AttributeError "'NoneType' object has no attribute 'save'"
               | Raise pe =>
                   if isinstance pe "Exception"
                   then DatasetError (not_serialisable data) (Some pe)
                   else pe
               end), w).
Proof.
  intros self. split; [done|split].
  - unfold load, _load, bind.
    by rewrite (self_attr_bound inherited self None w).
  - rewrite (save_after_failure inherited self data w
               (AttributeError "'NoneType' object has no attribute 'save'") w).
    + done.
    + by apply save_attempt_unbound.
Qed.

(** C3, as stated, fails: on a never-attached proxy [load] raises an
    [AttributeError], and [save] of a socket raises the [DatasetError] of an
    unserialisable artifact; neither is an [UnboundError]. *)
Lemma unattached_proxy_counterexample :
  fst (__init__ None calm) = Ok unattached
  /\ fst (load [] unattached calm)
     = Raise (AttributeError "'NoneType' object has no attribute 'load'")
  /\ exn_class (AttributeError "'NoneType' object has no attribute 'load'")
     <> "UnboundError"
  /\ fst (save [] unattached a_socket calm)
     = Raise (DatasetError
                "<class 'socket.socket'> cannot be serialised. ParallelRunner implicit memory datasets can only be used with serialisable data"
                (Some (TypeError "cannot pickle 'socket' object")))
  /\ exn_class (DatasetError (not_serialisable a_socket)
                  (Some (TypeError "cannot pickle 'socket' object")))
     <> "UnboundError".
Proof. repeat split; try reflexivity; vm_compute; discriminate. Qed.

(** C6.  [describe] returns the empty mapping: on any instance, on the
    instance [__init__] makes with or without a manager, and after any
    attach, load and save calls. *)
Theorem describe_is_empty inherited (self : SharedMemoryDataset)
    (mgr : option manager) (acts : list action) (w : World) :
  _describe self = ∅
  /\ _describe (fst (history inherited acts (self, w))) = ∅
  /\ match __init__ mgr w with
     | (Ok made, w') =>
         _describe made = ∅
         /\ _describe (fst (history inherited acts (made, w'))) = ∅
     | (Raise _, _) => True
     end.
Proof.
  repeat split.
  destruct (__init__ mgr w) as [[made|e] w']; [by split|done].
Qed.


Lemma manager_MemoryDataset_served m w :
  fault w (calls w) (CallMemoryDataset m) = None ->
  manager_MemoryDataset m w = (Ok (length (heap w)), hosted m w).
Proof.
  intros Hf. unfold manager_MemoryDataset, transport. by rewrite Hf.
Qed.

Lemma hosted_heap m w : heap (hosted m w) = (heap w ++ [(m, None)])%list.
Proof. reflexivity. Qed.

Lemma hosted_calls m w :
  calls (hosted m w) = (calls w ++ [CallMemoryDataset m])%list.
Proof. reflexivity. Qed.

(** C7.  When the manager serves the request, [set_manager] sends it
    exactly one [MemoryDataset()] request and nothing else, and binds
    [shared_memory_dataset] to the container it gets, whatever was bound
    before.  That container did not exist before, is hosted by that manager
    and is empty; the containers that existed keep their content.
    [__init__] with a manager binds in the same way, and a second
    [set_manager] binds to yet another container, leaving the first one as
    it was. *)
Theorem set_manager_rebinds (self : SharedMemoryDataset) (m m2 : manager)
    (w : World) :
  fault w (calls w) (CallMemoryDataset m) = None ->
  fault (hosted m w) (calls (hosted m w)) (CallMemoryDataset m2) = None ->
  let h := length (heap w) in
  let bound (h : handle) :=
    {| _EPHEMERAL := _EPHEMERAL self; shared_memory_dataset := Some (Some h) |} in
  set_manager self m w = (Ok (bound h), hosted m w)
  /\ __init__ (Some m) w
     = (Ok {| _EPHEMERAL := Some true; shared_memory_dataset := Some (Some h) |},
        hosted m w)
  /\ calls (hosted m w) = (calls w ++ [CallMemoryDataset m])%list
  /\ heap w !! h = None
  /\ heap (hosted m w) !! h = Some (m, None)
  /\ (forall h0 c, heap w !! h0 = Some c -> heap (hosted m w) !! h0 = Some c)
  /\ set_manager (bound h) m2 (hosted m w)
     = (Ok (bound (S h)), hosted m2 (hosted m w))
  /\ heap (hosted m2 (hosted m w)) !! h = Some (m, None)
  /\ heap (hosted m2 (hosted m w)) !! S h = Some (m2, None).
Proof.
  intros Hf Hf2 h bound.
  assert (heap w !! h = None) as Hfresh by (apply lookup_ge_None_2; lia).
  assert (length (heap (hosted m w)) = S h) as Hlen.
  { rewrite hosted_heap, length_app. simpl. unfold h. lia. }
  assert (heap (hosted m w) !! h = Some (m, None)) as Hnew.
  { rewrite hosted_heap. by apply list_lookup_middle. }
  split; [|split; [|split; [|split; [|split; [|split; [|split; [|split]]]]]]].
  - unfold set_manager, bind. by rewrite manager_MemoryDataset_served.
  - unfold __init__, bind. by rewrite manager_MemoryDataset_served.
  - apply hosted_calls.
  - exact Hfresh.
  - exact Hnew.
  - intros h0 c Hc. rewrite hosted_heap. by apply lookup_app_l_Some.
  - unfold set_manager, bind.
    rewrite manager_MemoryDataset_served by exact Hf2. by rewrite Hlen.
  - rewrite hosted_heap. by apply lookup_app_l_Some.
  - rewrite hosted_heap. apply list_lookup_middle. by rewrite Hlen.
Qed.

Lemma set_manager_rebinds_witness :
  set_manager unattached 7 calm = (Ok attached, hosted 7 calm)
  /\ set_manager attached 8 (hosted 7 calm)
     = (Ok {| _EPHEMERAL := Some true; shared_memory_dataset := Some (Some 1) |},
        hosted 8 (hosted 7 calm))
  /\ heap (hosted 8 (hosted 7 calm)) !! 0 = Some (7, None)
  /\ heap (hosted 8 (hosted 7 calm)) !! 1 = Some (8, None).
Proof.
  pose proof (set_manager_rebinds unattached 7 8 calm eq_refl eq_refl)
    as (H1 & _ & _ & _ & _ & _ & H7 & H8 & H9).
  exact (conj H1 (conj H7 (conj H8 H9))).
Defined.

(** Before [__init__] has run nothing is bound, and forwarding a name never
    comes back: reading [self.shared_memory_dataset] goes to [__getattr__]
    again, until the frames run out. *)
Lemma forwarding_recurses_before_init inherited w self name fr :
  normal_lookup inherited self "shared_memory_dataset" = None ->
  normal_lookup inherited self name = None ->
  name <> "__setstate__" ->
  getattr_ inherited fr w self name = Raise RecursionError.
Proof.
  intros Hsmd Hname Hne.
  assert (forall n, getattr_ inherited n w self "shared_memory_dataset"
                    = Raise RecursionError) as Hrec.
  { induction n as [|n IH]; simpl; rewrite Hsmd; [done|].
    unfold __getattr__. by rewrite decide_False, IH. }
  destruct fr as [|fr]; simpl; rewrite Hname; [done|].
  unfold __getattr__. by rewrite decide_False, Hrec.
Qed.

(** C10.  For a name the default lookup does not find on the proxy (and
    with a frame left for [__getattr__]): looking up ["__setstate__"]
    raises [AttributeError], on any instance, also one whose attributes are
    not set yet; any other name is looked up on the value bound to
    [shared_memory_dataset].  [__getattr__] itself raises [AttributeError]
    for ["__setstate__"] before it reads any attribute of [self]. *)
Theorem getattr_forwards inherited (w : World) (self : SharedMemoryDataset)
    (name : string) (fr : nat) :
  normal_lookup inherited self name = None ->
  (name = "__setstate__" ->
     getattr_ inherited (S fr) w self name = Raise (AttributeError ""))
  /\ (name <> "__setstate__" ->
      forall t, shared_memory_dataset self = Some t ->
        getattr_ inherited (S fr) w self name
        = py_getattr w (target_value t) name)
  /\ (forall self_attr, __getattr__ self_attr w "__setstate__"
                        = Raise (AttributeError "")).
Proof.
  intros Hname. split; [|split].
  - intros ->. simpl. by rewrite Hname.
  - intros Hne t Hb. simpl. rewrite Hname.
    unfold __getattr__. rewrite decide_False by done.
    assert (getattr_ inherited fr w self "shared_memory_dataset"
            = Ok (target_value t)) as ->; [|done].
    assert (normal_lookup inherited self "shared_memory_dataset"
            = Some (target_value t)) as Hn.
    { unfold normal_lookup. by rewrite instance_dict_smd, Hb. }
    destruct fr; simpl; by rewrite Hn.
  - intros f. reflexivity.
Qed.

Lemma getattr_forwards_witness :
  getattr_ [] 1 calm {| _EPHEMERAL := None; shared_memory_dataset := None |}
    "__setstate__"
  = Raise (AttributeError "")
  /\ getattr_ [] 1 calm attached "exists" = Ok (VAttr (VHandle 0) "exists").
Proof.
  split.
  - exact (proj1 (getattr_forwards [] calm
                    {| _EPHEMERAL := None; shared_memory_dataset := None |}
                    "__setstate__" 0 eq_refl) eq_refl).
  - refine (proj1 (proj2 (getattr_forwards [] calm attached "exists" 0 eq_refl))
              _ (Some 0) eq_refl).
    discriminate.
Defined.

End SharedMemoryProps.

(** * Properties of [HDFLocalDataSet] *)

Module HDFLocalProps.

Import HDFLocal HDFLocalExamples.
Local Open Scope list_scope.

(** *** Creating directories *)

Lemma lookup_node_insert fs (k k' : list string) (n : node) :
  k <> [] ->
  lookup_node (<[k := n]> fs) k'
  = if decide (k = k') then Some n else lookup_node fs k'.
Proof.
  intros Hk. unfold lookup_node. destruct k' as [|x k'].
  - by rewrite decide_False.
  - rewrite lookup_insert. by destruct (decide (k = x :: k')).
Qed.

Lemma is_dir_lookup fs k : is_dir fs k = true <-> lookup_node fs k = Some Dir.
Proof.
  unfold is_dir. destruct (lookup_node fs k) as [[|c]|]; split; congruence.
Qed.


Lemma FileExistsError_not_FileNotFoundError msg :
  isinstance (FileExistsError msg) "FileNotFoundError" = false.
Proof. reflexivity. Qed.

Lemma FileNotFoundError_is_FileNotFoundError msg :
  isinstance (FileNotFoundError msg) "FileNotFoundError" = true.
Proof. reflexivity. Qed.

(** [os.mkdir] on a path with a last component. *)
Lemma os_mkdir_snoc fs (base l : list string) (x : string) :
  os_mkdir fs base (l ++ [x])
  = match lookup_node fs (base ++ l ++ [x]) with
    | Some _ => Raise (FileExistsError "File exists")
    | None =>
        match lookup_node fs (base ++ l) with
        | None => Raise (FileNotFoundError "No such file or directory")
        | Some (File _) => Raise (NotADirectoryError "Not a directory")
        | Some Dir => Ok (<[base ++ l ++ [x] := Dir]> fs)
        end
    end.
Proof. unfold os_mkdir. rewrite removelast_last. by destruct l. Qed.

(** In a tree, every directory on the way to an entry exists. *)
Lemma tree_ancestors fs (base rel : list string) :
  tree fs ->
  lookup_node fs (base ++ rel) <> None ->
  forall n, is_dir fs (base ++ take n rel) = true \/ take n rel = rel.
Proof.
  intros Htree. induction rel as [|x l IH] using rev_ind; intros Hl n.
  - right. by rewrite take_nil.
  - destruct (decide (n <= length l)) as [Hle|Hgt].
    + left. rewrite take_app_le by done.
      assert (lookup_node fs (base ++ l) = Some Dir) as Hp.
      { destruct (lookup_node fs (base ++ l ++ [x])) as [nd|] eqn:Hnd; [|done].
        apply Htree in Hnd. by rewrite app_assoc, removelast_last in Hnd. }
      destruct (IH ltac:(by rewrite Hp) n) as [Hd | Ht]; [done|].
      rewrite Ht. by apply is_dir_lookup.
    + right. apply take_ge. rewrite length_app. simpl. lia.
Qed.




(** *** The dataset *)

Section Props.

Context {B : Type} {R : @AbstractVersionedDataSet B} {P : @Pandas B}.

Lemma call_with_key_free {A} fname (kwargs : gmap string value)
    (f : M (@World B) A) :
  kwargs !! "key" = None -> call_with_key fname kwargs f = f.
Proof. intros Hk. unfold call_with_key. by rewrite Hk. Qed.

(** C8, as amended.  The dataset keeps the [load_args] and [save_args] it
    is given as they are, and the empty mapping for [None]; when they hold
    no entry named [key], [_load] and [_save] hand exactly them to
    [read_hdf] and [to_hdf]. *)
Theorem options_pass_through (filepath key : string)
    (load_args save_args : option (gmap string value))
    (version : option Version) :
  let self := __init__ filepath key load_args save_args version in
  let la := default (∅ : gmap string value) load_args in
  let sa := default (∅ : gmap string value) save_args in
  la !! "key" = None ->
  sa !! "key" = None ->
  _load_args self = la
  /\ _save_args self = sa
  /\ (forall w,
        _load self w
        = (do load_path <- _get_load_path self;
           read_hdf load_path key la) w)
  /\ (forall data w,
        _save self data w
        = (do save_path <- _get_save_path self;
           do _ <- Path_mkdir (parent save_path);
           do _ <- to_hdf data (str_path save_path) key sa;
           do load_path <- _get_load_path self;
           do abs_load <- Path_absolute load_path;
           do abs_save <- Path_absolute save_path;
           _check_paths_consistency self abs_load abs_save) w).
Proof.
  intros self la sa Hla Hsa.
  assert (_load_args self = la) as Hl.
  { unfold self, la, __init__, dict_merge. simpl.
    destruct load_args; simpl; [apply (right_id ∅ (∪))|done]. }
  assert (_save_args self = sa) as Hs.
  { unfold self, sa, __init__, dict_merge. simpl.
    destruct save_args; simpl; [apply (right_id ∅ (∪))|done]. }
  split; [done|split; [done|split]].
  - intros w. unfold _load. rewrite Hl. unfold bind.
    destruct (_get_load_path self w) as [[lp|e] w1]; [|done].
    by rewrite (call_with_key_free _ _ _ Hla).
  - intros data w. unfold _save. rewrite Hs.
    unfold bind. destruct (_get_save_path self w) as [[sp|e] w1]; [|done].
    destruct (Path_mkdir (parent sp) w1) as [[[]|e] w2]; [|done].
    by rewrite (call_with_key_free _ _ _ Hsa).
Qed.

(** C9.  [_exists] returns [False] when [_get_load_path] raises a
    [DataSetError]; it returns [True] only when the load path resolves to
    an existing file whose store lists the key as it is matched: the key
    itself when it starts with a slash, and the key with a slash put in
    front of it when it does not; and it does return [True] then. *)
Theorem exists_catches_not_found (self : HDFLocalDataSet) (w : @World B) :
  (forall e w',
      _get_load_path self w = (Raise e, w') ->
      isinstance e "DataSetError" = true ->
      _exists self w = (Ok false, w'))
  /\ (forall w',
        _exists self w = (Ok true, w') ->
        exists path w1 keys,
          _get_load_path self w = (Ok path, w1)
          /\ is_file (fs w1) (fs_key w1 path) = true
          /\ HDFStore_keys path w1 = (Ok keys, w')
          /\ (if startswith (_key self) "/" then _key self
              else ("/" ++ _key self)%string) ∈ keys)
  /\ (forall path w1 keys w',
        _get_load_path self w = (Ok path, w1) ->
        is_file (fs w1) (fs_key w1 path) = true ->
        HDFStore_keys path w1 = (Ok keys, w') ->
        (if startswith (_key self) "/" then _key self
         else ("/" ++ _key self)%string) ∈ keys ->
        _exists self w = (Ok true, w'))
  /\ (startswith (_key self) "/" = true -> key_with_slash self = _key self)
  /\ (startswith (_key self) "/" = false ->
      key_with_slash self = ("/" ++ _key self)%string).
Proof.
  change (if startswith (_key self) "/" then _key self
          else ("/" ++ _key self)%string) with (key_with_slash self).
  split; [|split; [|split; [|split]]].
  - intros e w' Hg He. unfold _exists, bind, try_except.
    by rewrite Hg, He.
  - intros w'. unfold _exists, bind at 1, try_except, bind at 1.
    destruct (_get_load_path self w) as [[path|e] w1].
    + unfold ret at 1. unfold bind, Path_is_file.
      destruct (is_file (fs w1) (fs_key w1 path)) eqn:Hf; [|done].
      destruct (HDFStore_keys path w1) as [[keys|e] w2] eqn:Hk; [|done].
      destruct (bool_decide (key_with_slash self ∈ keys)) eqn:Hin; [|done].
      intros [= <-]. exists path, w1, keys.
      by apply bool_decide_eq_true in Hin.
    + destruct (isinstance e "DataSetError"); done.
  - intros path w1 keys w' Hg Hf Hk Hin.
    unfold _exists, bind at 1, try_except, bind at 1. rewrite Hg.
    unfold ret at 1. unfold bind, Path_is_file. rewrite Hf, Hk.
    by rewrite bool_decide_eq_true_2.
  - unfold key_with_slash. by intros ->.
  - unfold key_with_slash. by intros ->.
Qed.




End Props.


(** *** The theorems at work *)


Lemma options_pass_through_witness :
  let self := __init__ "/data/test.hdf" "test_hdf_key"
                (Some {["mode" := VStr "r"]}) None None in
  _load_args self = {["mode" := VStr "r"]}
  /\ _save_args self = ∅
  /\ @_load _ (resolving (Ok v1) v1) pandas self empty_disk
     = (do load_path <- @_get_load_path _ (resolving (Ok v1) v1) self;
        @read_hdf _ pandas load_path "test_hdf_key" {["mode" := VStr "r"]})
         empty_disk.
Proof.
  intros self.
  destruct (@options_pass_through _ (resolving (Ok v1) v1) pandas
              "/data/test.hdf" "test_hdf_key"
              (Some {["mode" := VStr "r"]}) None None)
    as (Hl & Hs & Hload & _); [reflexivity..|].
  exact (conj Hl (conj Hs (Hload empty_disk))).
Defined.

(** C8, as stated, fails: with an entry named [key] among the load options
    the call of [read_hdf] is a [TypeError], the adapter is not called (the
    log of its calls stays empty) and gets no options, though it would have
    read a frame had it been handed them. *)
Lemma options_counterexample :
  let self := __init__ "/data/test.hdf" "test_hdf_key"
                (Some {["key" := VStr "other"]}) None None in
  _load_args self = {["key" := VStr "other"]}
  /\ @_load _ (resolving (Ok v1) v1) pandas self empty_disk
     = (Raise (TypeError
                 "read_hdf() got multiple values for keyword argument 'key'"),
        empty_disk)
  /\ ext (snd (@_load _ (resolving (Ok v1) v1) pandas self empty_disk)) = []
  /\ (do load_path <- @_get_load_path _ (resolving (Ok v1) v1) self;
      @read_hdf _ pandas load_path "test_hdf_key" {["key" := VStr "other"]})
       empty_disk
     = (Ok a_frame, note "read_hdf" empty_disk).
Proof. repeat split. Qed.

Lemma exists_catches_not_found_witness :
  @_exists _ (resolving (Raise not_found) v1) pandas data_set empty_disk
  = (Ok false, empty_disk)
  /\ @_exists _ (resolving (Ok v1) v1) pandas data_set saved_disk
     = (Ok true, note "HDFStore" saved_disk)
  /\ @_exists _ (resolving (Ok v1) v1) pandas slash_key_data_set saved_disk
     = (Ok true, note "HDFStore" saved_disk).
Proof.
  split; [|split].
  - exact (proj1 (@exists_catches_not_found _ (resolving (Raise not_found) v1)
                    pandas data_set empty_disk)
             not_found empty_disk eq_refl eq_refl).
  - apply (proj1 (proj2 (proj2 (@exists_catches_not_found _
                                  (resolving (Ok v1) v1) pandas data_set
                                  saved_disk)))
             v1 saved_disk ["/test_hdf_key"] (note "HDFStore" saved_disk));
      [reflexivity..|].
    constructor.
  - apply (proj1 (proj2 (proj2 (@exists_catches_not_found _
                                  (resolving (Ok v1) v1) pandas
                                  slash_key_data_set saved_disk)))
             v1 saved_disk ["/test_hdf_key"] (note "HDFStore" saved_disk));
      [reflexivity..|].
    constructor.
Defined.



End HDFLocalProps.

(** * More on [SharedMemoryDataset] *)

Module SharedMemoryMore.

Import SharedMemory SharedMemoryExamples SharedMemoryMoreDefs SharedMemoryProps.
Local Open Scope list_scope.

(** ** What a request leaves behind *)

Lemma container_save_calls h data w :
  calls (snd (container_save h data w)) = calls w ++ [CallSave h data].
Proof.
  unfold container_save, transport.
  destruct (fault w (calls w) (CallSave h data)); [done|].
  simpl. by destruct (heap w !! h) as [[m c]|].
Qed.

Lemma container_save_heap_length h data w :
  length (heap (snd (container_save h data w))) = length (heap w).
Proof.
  unfold container_save, transport.
  destruct (fault w (calls w) (CallSave h data)); [done|].
  simpl. destruct (heap w !! h) as [[m c]|]; [|done].
  simpl. by rewrite length_insert.
Qed.

Lemma container_load_world h w :
  snd (container_load h w) = log (CallLoad h) w.
Proof.
  unfold container_load, transport.
  destruct (fault w (calls w) (CallLoad h)); [done|].
  simpl. by destruct (heap w !! h) as [[m [data|]]|].
Qed.

Lemma container_load_served h m data w :
  fault w (calls w) (CallLoad h) = None ->
  heap w !! h = Some (m, Some data) ->
  container_load h w = (Ok data, log (CallLoad h) w).
Proof.
  intros Hf Hh. unfold container_load, transport. rewrite Hf.
  simpl. by rewrite Hh.
Qed.

(** The handler of [_save] sends nothing: [save] leaves the world the
    statement in its [try] leaves. *)
Lemma save_world inherited self data w :
  snd (save inherited self data w)
  = snd (bind (self_attr inherited self "shared_memory_dataset")
           (fun target =>
              call_method target "save" (fun h => container_save h data)) w).
Proof.
  unfold save, _save, try_except at 1.
  destruct (bind _ _ w) as [[[]|e] w']; [done|].
  destruct (isinstance e "Exception"); [|done].
  unfold bind, try_except, pickle_dumps, eval, raise.
  destruct (art_pickle data) as [bytes|pe]; [done|].
  by destruct (isinstance pe "Exception").
Qed.

Lemma load_bound inherited self h w :
  shared_memory_dataset self = Some (Some h) ->
  load inherited self w = container_load h w.
Proof.
  intros Hb. unfold load, _load, bind.
  by rewrite (self_attr_bound inherited self (Some h) w Hb).
Qed.

Lemma save_ok inherited self h data w w' :
  shared_memory_dataset self = Some (Some h) ->
  container_save h data w = (Ok tt, w') ->
  save inherited self data w = (Ok tt, w').
Proof.
  intros Hb Hs. unfold save, _save, try_except.
  by rewrite (save_attempt_bound inherited self h data w Hb), Hs.
Qed.

(** X1.  What is saved through a bound proxy is what the next load
    returns, on a transport that lets the two requests through. *)
Theorem save_then_load inherited (self : SharedMemoryDataset) (h : handle)
    (m : manager) (c : option Artifact) (data : Artifact) (w : World) :
  shared_memory_dataset self = Some (Some h) ->
  heap w !! h = Some (m, c) ->
  fault w (calls w) (CallSave h data) = None ->
  fault w (calls w ++ [CallSave h data]) (CallLoad h) = None ->
  exists w1 w2,
    save inherited self data w = (Ok tt, w1)
    /\ load inherited self w1 = (Ok data, w2)
    /\ heap w2 !! h = Some (m, Some data)
    /\ calls w2 = calls w ++ [CallSave h data; CallLoad h].
Proof.
  intros Hb Hh Hf1 Hf2.
  set (w1 := set_heap (<[h := (m, Some data)]> (heap w)) (log (CallSave h data) w)).
  assert (container_save h data w = (Ok tt, w1)) as Hs.
  { unfold container_save, transport. rewrite Hf1. simpl. by rewrite Hh. }
  assert (heap w1 !! h = Some (m, Some data)) as Hh1.
  { simpl. apply list_lookup_insert_eq. by eapply lookup_lt_Some. }
  exists w1, (log (CallLoad h) w1).
  split; [by apply (save_ok inherited self h)|].
  split; [|split; [exact Hh1|]].
  - rewrite (load_bound inherited self h w1 Hb).
    by apply (container_load_served h m).
  - simpl. by rewrite <- app_assoc.
Qed.

Lemma save_then_load_witness :
  exists w1 w2,
    save [] attached a_list (hosted 7 calm) = (Ok tt, w1)
    /\ load [] attached w1 = (Ok a_list, w2)
    /\ heap w2 !! 0 = Some (7, Some a_list)
    /\ calls w2 = [CallMemoryDataset 7; CallSave 0 a_list; CallLoad 0].
Proof.
  exact (save_then_load [] attached 0 7 None a_list (hosted 7 calm)
           eq_refl eq_refl eq_refl eq_refl).
Defined.

(** X2.  On a bound proxy a [save] sends exactly one request, the save on
    the bound container, whether it succeeds or fails (the dry run sends
    nothing, nothing is retried), and a [load] sends exactly one load and
    leaves every container as it was; neither creates or destroys a
    container. *)
Theorem one_request_per_call inherited (self : SharedMemoryDataset)
    (h : handle) (data : Artifact) (w : World) :
  shared_memory_dataset self = Some (Some h) ->
  calls (snd (save inherited self data w)) = calls w ++ [CallSave h data]
  /\ length (heap (snd (save inherited self data w))) = length (heap w)
  /\ calls (snd (load inherited self w)) = calls w ++ [CallLoad h]
  /\ heap (snd (load inherited self w)) = heap w.
Proof.
  intros Hb.
  rewrite save_world, (save_attempt_bound inherited self h data w Hb).
  rewrite (load_bound inherited self h w Hb), container_load_world.
  split; [apply container_save_calls|].
  split; [apply container_save_heap_length|done].
Qed.

Lemma one_request_per_call_witness :
  calls (snd (save [] attached a_socket (failing ConnectionResetError)))
  = [CallSave 0 a_socket]
  /\ calls (snd (load [] attached (hosted 7 calm)))
     = [CallMemoryDataset 7; CallLoad 0].
Proof.
  split.
  - exact (proj1 (one_request_per_call [] attached 0 a_socket
                    (failing ConnectionResetError) eq_refl)).
  - exact (proj1 (proj2 (proj2 (one_request_per_call [] attached 0 a_list
                                  (hosted 7 calm) eq_refl)))).
Defined.

(** X3.  An exception of the container's save that is not an [Exception]
    (a [KeyboardInterrupt], say) is not caught: [save] raises it as it is,
    without a dry run, also for an artifact that does not pickle. *)
Theorem save_lets_base_exceptions_through inherited
    (self : SharedMemoryDataset) (h : handle) (data : Artifact)
    (w w' : World) (e : exn) :
  shared_memory_dataset self = Some (Some h) ->
  container_save h data w = (Raise e, w') ->
  isinstance e "Exception" = false ->
  save inherited self data w = (Raise e, w').
Proof.
  intros Hb Hf He.
  rewrite (save_after_failure inherited self data w e w').
  - by rewrite He.
  - by rewrite (save_attempt_bound _ _ h).
Qed.

(** X4.  When the dry run itself ends with an exception that is not an
    [Exception], [save] raises that one: neither the [DatasetError] nor the
    container's exception. *)
Theorem save_dry_run_interrupted inherited (self : SharedMemoryDataset)
    (h : handle) (data : Artifact) (w w' : World) (e pe : exn) :
  shared_memory_dataset self = Some (Some h) ->
  container_save h data w = (Raise e, w') ->
  isinstance e "Exception" = true ->
  art_pickle data = Raise pe ->
  isinstance pe "Exception" = false ->
  save inherited self data w = (Raise pe, w').
Proof.
  intros Hb Hf He Hp Hpe.
  rewrite (save_after_failure inherited self data w e w').
  - rewrite He. unfold diagnosis. by rewrite Hp, Hpe.
  - by rewrite (save_attempt_bound _ _ h).
Qed.

Lemma save_dry_run_interrupted_witness :
  save [] attached an_interrupting (failing ConnectionResetError)
  = (Raise KeyboardInterrupt,
     log (CallSave 0 an_interrupting) (failing ConnectionResetError)).
Proof.
  exact (save_dry_run_interrupted [] attached 0 an_interrupting
           (failing ConnectionResetError)
           (log (CallSave 0 an_interrupting) (failing ConnectionResetError))
           ConnectionResetError KeyboardInterrupt
           eq_refl eq_refl eq_refl eq_refl eq_refl).
Defined.

Lemma save_lets_base_exceptions_through_witness :
  save [] attached a_socket (failing KeyboardInterrupt)
  = (Raise KeyboardInterrupt, log (CallSave 0 a_socket) (failing KeyboardInterrupt)).
Proof.
  exact (save_lets_base_exceptions_through [] attached 0 a_socket
           (failing KeyboardInterrupt)
           (log (CallSave 0 a_socket) (failing KeyboardInterrupt))
           KeyboardInterrupt eq_refl eq_refl eq_refl).
Defined.

(** ** The instance over its life *)

Lemma load_heap inherited self w :
  initialised (self, w) -> heap (snd (load inherited self w)) = heap w.
Proof.
  intros (_ & t & Hb & _). simpl in Hb. destruct t as [h|].
  - by rewrite (load_bound inherited self h w Hb), container_load_world.
  - unfold load, _load, bind.
    by rewrite (self_attr_bound inherited self None w Hb).
Qed.

Lemma save_heap_length inherited self data w :
  initialised (self, w) ->
  length (heap (snd (save inherited self data w))) = length (heap w).
Proof.
  intros (_ & t & Hb & _). simpl in Hb. rewrite save_world. destruct t as [h|].
  - rewrite (save_attempt_bound inherited self h data w Hb).
    apply container_save_heap_length.
  - by rewrite (save_attempt_unbound inherited self data w Hb).
Qed.

Lemma perform_initialised inherited st a :
  initialised st ->
  initialised (perform inherited st a)
  /\ length (heap (snd st)) <= length (heap (snd (perform inherited st a))).
Proof.
  destruct st as [self w]. intros Hi.
  pose proof Hi as (He & t & Hb & Hv). simpl in He, Hb, Hv.
  destruct a as [m| |data]; simpl.
  - unfold set_manager, bind, manager_MemoryDataset, transport.
    destruct (fault w (calls w) (CallMemoryDataset m)); simpl.
    + split; [|done]. split; [done|]. exists t. by split.
    + split; [|rewrite length_app; simpl; lia].
      split; [done|]. exists (Some (length (heap w))). split; [done|].
      intros h [= <-]. simpl. rewrite length_app. simpl. lia.
  - rewrite (load_heap inherited self w Hi). split; [|done].
    split; [done|]. exists t. split; [done|].
    simpl. by rewrite (load_heap inherited self w Hi).
  - pose proof (save_heap_length inherited self data w Hi) as Hl.
    split; [|lia]. split; [done|]. exists t. split; [done|].
    simpl. rewrite Hl. exact Hv.
Qed.

Lemma history_initialised inherited acts :
  forall st,
    initialised st ->
    initialised (history inherited acts st)
    /\ length (heap (snd st)) <= length (heap (snd (history inherited acts st))).
Proof.
  induction acts as [|a acts IH]; intros st Hi; [by split|].
  destruct (perform_initialised inherited st a Hi) as [Hi' Hle].
  destruct (IH (perform inherited st a) Hi') as [Hi'' Hle'].
  change (history inherited (a :: acts) st)
    with (history inherited acts (perform inherited st a)).
  split; [exact Hi''|]. etrans; [exact Hle|exact Hle'].
Qed.

(** X5.  An instance [__init__] has made stays initialised through any
    attach, load and save calls, failed ones included: [_EPHEMERAL] is
    [True], [shared_memory_dataset] is set (so reading it never falls to
    [__getattr__]), the container it is bound to exists, and no container is
    ever destroyed. *)
Theorem instance_stays_initialised inherited (mgr : option manager)
    (w w0 : World) (self : SharedMemoryDataset) (acts : list action) :
  __init__ mgr w = (Ok self, w0) ->
  let st := history inherited acts (self, w0) in
  initialised st
  /\ length (heap w) <= length (heap (snd st))
  /\ exists t,
      self_attr inherited (fst st) "shared_memory_dataset" (snd st)
      = (Ok (target_value t), snd st).
Proof.
  intros Hinit st.
  assert (initialised (self, w0) /\ length (heap w) <= length (heap w0))
    as [Hi Hle].
  { destruct mgr as [m|]; simpl in Hinit.
    - unfold bind, manager_MemoryDataset, transport in Hinit.
      destruct (fault w (calls w) (CallMemoryDataset m)); [done|].
      simpl in Hinit. injection Hinit as <- <-.
      split; [|simpl; rewrite length_app; lia].
      split; [done|]. exists (Some (length (heap w))). split; [done|].
      intros h [= <-]. simpl. rewrite length_app. simpl. lia.
    - injection Hinit as <- <-. split; [|done].
      split; [done|]. exists None. by split. }
  destruct (history_initialised inherited acts (self, w0) Hi) as [Hst Hle'].
  fold st in Hst, Hle'. simpl in Hle'.
  split; [exact Hst|split; [lia|]].
  destruct Hst as (_ & t & Hb & _). exists t.
  by apply self_attr_bound.
Qed.

Lemma instance_stays_initialised_witness :
  initialised
    (history [] [DoSave a_socket; DoSetManager 7; DoLoad; DoSave a_list]
       (unattached, calm)).
Proof.
  exact (proj1 (instance_stays_initialised [] None calm calm unattached
                  [DoSave a_socket; DoSetManager 7; DoLoad; DoSave a_list]
                  eq_refl)).
Defined.

(** ** Attribute lookup *)

(** X7.  On a proxy that is not attached a forwarded name is looked up on
    [None]: unless [None] has it, the lookup raises the [AttributeError] of
    [None]. *)
Theorem getattr_unattached inherited (fr : nat) (w : World)
    (self : SharedMemoryDataset) (name : string) :
  shared_memory_dataset self = Some None ->
  normal_lookup inherited self name = None ->
  name <> "__setstate__" ->
  name ∉ NoneType_dir ->
  getattr_ inherited (S fr) w self name
  = Raise (AttributeError
             ("'NoneType' object has no attribute '" ++ name ++ "'")%string).
Proof.
  intros Hb Hname Hne Hnone. simpl. rewrite Hname.
  unfold __getattr__. rewrite decide_False by done.
  assert (getattr_ inherited fr w self "shared_memory_dataset" = Ok VNone) as ->.
  { assert (normal_lookup inherited self "shared_memory_dataset" = Some VNone)
      as Hn by (unfold normal_lookup; by rewrite instance_dict_smd, Hb).
    destruct fr; simpl; by rewrite Hn. }
  unfold py_getattr. by rewrite bool_decide_eq_false_2.
Qed.

Lemma getattr_unattached_witness :
  getattr_ [] 1 calm unattached "exists"
  = Raise (AttributeError "'NoneType' object has no attribute 'exists'").
Proof.
  apply (getattr_unattached [] 0 calm unattached "exists");
    [reflexivity|reflexivity|discriminate|].
  unfold NoneType_dir. rewrite !elem_of_cons, elem_of_nil.
  intros Hin. repeat destruct Hin as [Hin|Hin]; done.
Defined.

(** X8.  On an instance whose attributes are not set (as [pickle] has it
    before it restores the state), forwarding any name other than
    ["__setstate__"] reads [self.shared_memory_dataset], which is forwarded
    again: the lookup ends in [RecursionError] however many frames there
    are.  This is the recursion the guard in [__getattr__] is there for. *)
Theorem forwarding_without_state_recurses inherited (w : World)
    (self : SharedMemoryDataset) (name : string) (fr : nat) :
  normal_lookup inherited self "shared_memory_dataset" = None ->
  normal_lookup inherited self name = None ->
  name <> "__setstate__" ->
  getattr_ inherited fr w self name = Raise RecursionError.
Proof. apply forwarding_recurses_before_init. Qed.

Lemma forwarding_without_state_recurses_witness :
  getattr_ [] 1000 calm {| _EPHEMERAL := None; shared_memory_dataset := None |}
    "exists"
  = Raise RecursionError.
Proof.
  apply (forwarding_without_state_recurses [] calm
           {| _EPHEMERAL := None; shared_memory_dataset := None |} "exists" 1000);
    [reflexivity|reflexivity|discriminate].
Defined.

End SharedMemoryMore.

(** * More on [HDFLocalDataSet] *)

Module HDFLocalMore.

Import HDFLocal HDFLocalExamples HDFLocalMoreDefs HDFLocalProps.
Local Open Scope list_scope.

(** ** Creating directories *)

Lemma NotADirectoryError_not_FileNotFoundError msg :
  isinstance (NotADirectoryError msg) "FileNotFoundError" = false.
Proof. reflexivity. Qed.

Lemma is_file_lookup fs k :
  is_file fs k = true -> exists c, lookup_node fs k = Some (File c).
Proof.
  unfold is_file. destruct (lookup_node fs k) as [[|c]|]; [done|eauto|done].
Qed.

Lemma file_is_no_dir fs k : is_file fs k = true -> is_dir fs k = false.
Proof.
  intros (c & Hc)%is_file_lookup. unfold is_dir. by rewrite Hc.
Qed.

Lemma take_snoc_cases {A} (l : list A) (x : A) (n : nat) :
  take n (l ++ [x]) = take n l \/ take n (l ++ [x]) = l ++ [x].
Proof.
  destruct (decide (n <= length l)) as [Hle|Hgt].
  - left. by rewrite take_app_le.
  - right. apply take_ge. rewrite length_app. simpl. lia.
Qed.

(** A successful [mkdir] leaves its target a directory. *)
Lemma mkdir_parents_ok_is_dir (base rk : list string) fs fs' :
  mkdir_parents base rk fs = Ok fs' -> is_dir fs' (base ++ rev rk) = true.
Proof.
  assert (forall (f : gmap (list string) node) (l : list string) (x : string),
             is_dir (<[base ++ l ++ [x] := Dir]> f) (base ++ l ++ [x]) = true)
    as Hins.
  { intros f l x. apply is_dir_lookup. rewrite lookup_node_insert.
    - by rewrite decide_True.
    - intros Heq. apply app_eq_nil in Heq as [_ Heq].
      by apply app_eq_nil in Heq as [_ Heq]. }
  destruct rk as [|x rk].
  - simpl. unfold os_mkdir. rewrite app_nil_r.
    destruct (lookup_node fs base) as [nd|] eqn:Hl.
    + rewrite FileExistsError_not_FileNotFoundError.
      destruct (is_dir fs base) eqn:Hd; [|done]. by intros [= <-].
    + by rewrite FileNotFoundError_is_FileNotFoundError.
  - simpl mkdir_parents. change (rev (x :: rk)) with (rev rk ++ [x]).
    rewrite os_mkdir_snoc.
    destruct (lookup_node fs (base ++ rev rk ++ [x])) as [nd|] eqn:Hl.
    + rewrite FileExistsError_not_FileNotFoundError.
      destruct (is_dir fs (base ++ rev rk ++ [x])) eqn:Hd; [|done].
      by intros [= <-].
    + destruct (lookup_node fs (base ++ rev rk)) as [[|c]|] eqn:Hp.
      * intros [= <-]. apply Hins.
      * rewrite NotADirectoryError_not_FileNotFoundError.
        destruct (is_dir fs (base ++ rev rk ++ [x])) eqn:Hd; [|done].
        by intros [= <-].
      * rewrite FileNotFoundError_is_FileNotFoundError.
        destruct (mkdir_parents base rk fs) as [fs1|e]; [|done].
        unfold mkdir_exist_ok. rewrite os_mkdir_snoc.
        destruct (lookup_node fs1 (base ++ rev rk ++ [x])) as [nd|] eqn:Hl1.
        -- rewrite FileExistsError_not_FileNotFoundError.
           destruct (is_dir fs1 (base ++ rev rk ++ [x])) eqn:Hd; [|done].
           by intros [= <-].
        -- destruct (lookup_node fs1 (base ++ rev rk)) as [[|c]|] eqn:Hp1.
           ++ intros [= <-]. apply Hins.
           ++ rewrite NotADirectoryError_not_FileNotFoundError.
              destruct (is_dir fs1 (base ++ rev rk ++ [x])) eqn:Hd; [|done].
              by intros [= <-].
           ++ by rewrite FileNotFoundError_is_FileNotFoundError.
Qed.

(** On a directory that is there, [mkdir] does nothing. *)
Lemma mkdir_parents_noop (base rk : list string) fs :
  is_dir fs (base ++ rev rk) = true -> mkdir_parents base rk fs = Ok fs.
Proof.
  intros Hd. apply is_dir_lookup in Hd as Hl.
  destruct rk as [|x rk]; simpl mkdir_parents; simpl rev in *; unfold os_mkdir;
    rewrite Hl, FileExistsError_not_FileNotFoundError; by rewrite Hd.
Qed.

(** [mkdir] only adds directories on the way to its target. *)
Lemma mkdir_parents_adds_ancestors (base rk : list string) :
  forall fs fs' k,
    mkdir_parents base rk fs = Ok fs' ->
    lookup_node fs' k <> lookup_node fs k ->
    lookup_node fs k = None
    /\ lookup_node fs' k = Some Dir
    /\ exists n, k = base ++ take n (rev rk).
Proof.
  assert (forall (f : gmap (list string) node) (l : list string) (x : string) k,
             lookup_node f (base ++ l ++ [x]) = None ->
             lookup_node (<[base ++ l ++ [x] := Dir]> f) k <> lookup_node f k ->
             k = base ++ l ++ [x]
             /\ lookup_node (<[base ++ l ++ [x] := Dir]> f) k = Some Dir)
    as Hins.
  { intros f l x k Hnone. rewrite lookup_node_insert.
    - destruct (decide (base ++ l ++ [x] = k)) as [<-|]; [done|congruence].
    - intros Heq. apply app_eq_nil in Heq as [_ Heq].
      by apply app_eq_nil in Heq as [_ Heq]. }
  induction rk as [|x rk IH]; intros fs fs' k.
  - simpl. unfold os_mkdir. rewrite app_nil_r.
    destruct (lookup_node fs base) as [nd|] eqn:Hl.
    + rewrite FileExistsError_not_FileNotFoundError.
      destruct (is_dir fs base) eqn:Hd; [|done]. by intros [= <-].
    + by rewrite FileNotFoundError_is_FileNotFoundError.
  - simpl mkdir_parents. change (rev (x :: rk)) with (rev rk ++ [x]).
    rewrite os_mkdir_snoc.
    assert (forall f, lookup_node f (base ++ rev rk ++ [x]) = None ->
               lookup_node (<[base ++ rev rk ++ [x] := Dir]> f) k
               <> lookup_node f k ->
               lookup_node f k = None
               /\ lookup_node (<[base ++ rev rk ++ [x] := Dir]> f) k = Some Dir
               /\ exists n, k = base ++ take n (rev rk ++ [x])) as Hnew.
    { intros f Hnone Hne. destruct (Hins f (rev rk) x k Hnone Hne) as [-> Hd].
      split; [done|split; [done|]].
      exists (length (rev rk ++ [x])). by rewrite firstn_all. }
    destruct (lookup_node fs (base ++ rev rk ++ [x])) as [nd|] eqn:Hl.
    + rewrite FileExistsError_not_FileNotFoundError.
      destruct (is_dir fs (base ++ rev rk ++ [x])) eqn:Hd; [|done].
      by intros [= <-].
    + destruct (lookup_node fs (base ++ rev rk)) as [[|c]|] eqn:Hp.
      * intros [= <-]. by apply Hnew.
      * rewrite NotADirectoryError_not_FileNotFoundError.
        destruct (is_dir fs (base ++ rev rk ++ [x])) eqn:Hd; [|done].
        by intros [= <-].
      * rewrite FileNotFoundError_is_FileNotFoundError.
        destruct (mkdir_parents base rk fs) as [fs1|e] eqn:Hrec; [|done].
        assert (lookup_node fs1 (base ++ rev rk ++ [x]) = None) as Hl1.
        { destruct (decide (lookup_node fs1 (base ++ rev rk ++ [x])
                            = lookup_node fs (base ++ rev rk ++ [x])))
            as [->|Hne]; [done|].
          destruct (IH fs fs1 _ Hrec Hne) as (_ & _ & n & Hk).
          apply app_inv_head in Hk.
          assert (length (rev rk ++ [x]) = length (take n (rev rk))) as Hlen
              by by rewrite Hk.
          rewrite length_app, length_take in Hlen. simpl in Hlen. lia. }
        unfold mkdir_exist_ok. rewrite os_mkdir_snoc, Hl1.
        assert (forall n, exists n', take n (rev rk) = take n' (rev rk ++ [x]))
          as Hpre.
        { intros n. exists (n `min` length (rev rk)).
          rewrite take_app_le by lia.
          destruct (decide (n <= length (rev rk))).
          - by rewrite Nat.min_l.
          - rewrite Nat.min_r by lia. by rewrite take_ge, firstn_all by lia. }
        assert (lookup_node fs1 k <> lookup_node fs k ->
                lookup_node fs k = None /\ lookup_node fs1 k = Some Dir
                /\ exists n, k = base ++ take n (rev rk ++ [x])) as Hold.
        { intros Hne. destruct (IH fs fs1 k Hrec Hne) as (H1 & H2 & n & ->).
          split; [done|split; [done|]].
          destruct (Hpre n) as [n' ->]. by exists n'. }
        destruct (lookup_node fs1 (base ++ rev rk)) as [[|c]|] eqn:Hp1.
        -- intros [= <-] Hne.
           destruct (decide (lookup_node (<[base ++ rev rk ++ [x] := Dir]> fs1) k
                             = lookup_node fs1 k)) as [Heq|Hne1].
           ++ rewrite Heq in *. by apply Hold.
           ++ destruct (Hins fs1 (rev rk) x k Hl1 Hne1) as [-> Hd].
              split; [done|split; [done|]].
              exists (length (rev rk ++ [x])). by rewrite firstn_all.
        -- rewrite NotADirectoryError_not_FileNotFoundError.
           assert (is_dir fs1 (base ++ rev rk ++ [x]) = false) as ->; [|done].
           unfold is_dir. by rewrite Hl1.
        -- by rewrite FileNotFoundError_is_FileNotFoundError.
Qed.

(** With a regular file on the way, [mkdir] fails. *)
Lemma mkdir_parents_blocked (base rk : list string) :
  forall fs n,
    tree fs ->
    is_file fs (base ++ take n (rev rk)) = true ->
    exists e, mkdir_parents base rk fs = Raise e
              /\ (e = FileExistsError "File exists"
                  \/ e = NotADirectoryError "Not a directory").
Proof.
  induction rk as [|x rk IH]; intros fs n Htree Hfile.
  - simpl in Hfile. rewrite take_nil, app_nil_r in Hfile.
    exists (FileExistsError "File exists"). split; [|by left].
    simpl. unfold os_mkdir. rewrite app_nil_r.
    destruct (is_file_lookup _ _ Hfile) as [c ->].
    by rewrite FileExistsError_not_FileNotFoundError, (file_is_no_dir _ _ Hfile).
  - change (rev (x :: rk)) with (rev rk ++ [x]) in Hfile.
    simpl mkdir_parents. change (rev (x :: rk)) with (rev rk ++ [x]).
    rewrite os_mkdir_snoc.
    destruct (take_snoc_cases (rev rk) x n) as [Hn|Hn]; rewrite Hn in Hfile.
    + (* the file is the parent or above it *)
      assert (lookup_node fs (base ++ rev rk) <> Some Dir) as Hnodir.
      { intros Hd.
        destruct (tree_ancestors fs base (rev rk) Htree) with (n := n)
          as [Hdir|Hall]; [by rewrite Hd| |].
        - by rewrite (file_is_no_dir _ _ Hfile) in Hdir.
        - rewrite Hall in Hfile. destruct (is_file_lookup _ _ Hfile) as [c Hc].
          congruence. }
      assert (lookup_node fs (base ++ rev rk ++ [x]) = None) as ->.
      { destruct (lookup_node fs (base ++ rev rk ++ [x])) as [nd|] eqn:Hl; [|done].
        apply Htree in Hl. by rewrite app_assoc, removelast_last in Hl. }
      destruct (lookup_node fs (base ++ rev rk)) as [[|c]|] eqn:Hp.
      * done.
      * exists (NotADirectoryError "Not a directory"). split; [|by right].
        rewrite NotADirectoryError_not_FileNotFoundError.
        assert (is_dir fs (base ++ rev rk ++ [x]) = false) as ->; [|done].
        unfold is_dir.
        destruct (lookup_node fs (base ++ rev rk ++ [x])) as [nd|] eqn:Hl; [|done].
        apply Htree in Hl. rewrite app_assoc, removelast_last in Hl. congruence.
      * rewrite FileNotFoundError_is_FileNotFoundError.
        destruct (IH fs n Htree Hfile) as (e & -> & He). by exists e.
    + (* the file is the target *)
      exists (FileExistsError "File exists"). split; [|by left].
      destruct (is_file_lookup _ _ Hfile) as [c ->].
      by rewrite FileExistsError_not_FileNotFoundError, (file_is_no_dir _ _ Hfile).
Qed.

(** ** The dataset *)

Section More.

Context {B : Type} {R : @AbstractVersionedDataSet B} {P : @Pandas B}.

(** X9.  Making the directory of a save path is idempotent: once it has
    succeeded, doing it again succeeds and changes nothing, so saving again
    to the same save path never fails on the directory being there. *)
Theorem mkdir_again_changes_nothing (p : Path) (w w2 : @World B) :
  Path_mkdir p w = (Ok tt, w2) ->
  Path_mkdir p w2 = (Ok tt, w2).
Proof.
  unfold Path_mkdir.
  destruct (mkdir_parents (fs_base w p) (rev (parts p)) (fs w))
    as [fs'|e] eqn:Hmk; [|done].
  intros [= <-]. apply mkdir_parents_ok_is_dir in Hmk.
  change (fs_base (set_fs fs' w) p) with (fs_base w p).
  change (fs (set_fs fs' w)) with fs'.
  by rewrite (mkdir_parents_noop _ _ _ Hmk).
Qed.

(** X10.  Making the directory of a save path that has no [..] component
    only adds directories on the way to it: when [mkdir] succeeds, an entry
    that differs afterwards was missing, is a directory now, and is the path
    or one of its ancestors; no entry is replaced or removed. *)
Theorem mkdir_only_adds_ancestors (p : Path) (w w2 : @World B) :
  ".." ∉ fs_key w p ->
  Path_mkdir p w = (Ok tt, w2) ->
  cwd w2 = cwd w
  /\ ext w2 = ext w
  /\ (forall k,
        lookup_node (fs w2) k <> lookup_node (fs w) k ->
        lookup_node (fs w) k = None
        /\ lookup_node (fs w2) k = Some Dir
        /\ exists n, k = fs_base w p ++ take n (parts p)).
Proof.
  intros _. unfold Path_mkdir.
  destruct (mkdir_parents (fs_base w p) (rev (parts p)) (fs w))
    as [fs'|e] eqn:Hmk; intros [= <-].
  split; [done|split; [done|]]. intros k Hne.
  destruct (mkdir_parents_adds_ancestors _ _ _ _ k Hmk Hne)
    as (H1 & H2 & n & Hk).
  rewrite rev_involutive in Hk. eauto.
Qed.

(** X11.  With a regular file on the way to the directory of the save path
    (in a file system that is a tree), [_save] raises the [OSError] of
    [mkdir] ([FileExistsError] or [NotADirectoryError]) and stops there:
    nothing is created, the adapter is not called and no check is run. *)
Theorem save_blocked_by_file (self : HDFLocalDataSet) (data : DataFrame)
    (w w1 : @World B) (save_path : Path) (n : nat) :
  _get_save_path self w = (Ok save_path, w1) ->
  tree (fs w1) ->
  is_file (fs w1)
    (fs_base w1 (parent save_path) ++ take n (parts (parent save_path))) = true ->
  exists e,
    _save self data w = (Raise e, w1)
    /\ isinstance e "OSError" = true
    /\ (e = FileExistsError "File exists"
        \/ e = NotADirectoryError "Not a directory").
Proof.
  intros Hg Htree Hfile.
  destruct (mkdir_parents_blocked (fs_base w1 (parent save_path))
              (rev (parts (parent save_path))) (fs w1) n Htree)
    as (e & Hmk & He).
  { by rewrite rev_involutive. }
  exists e. split; [|split; [by destruct He as [-> | ->]|exact He]].
  unfold _save, bind at 1. rewrite Hg. unfold bind at 1, Path_mkdir.
  by rewrite Hmk.
Qed.

(** X12.  With an entry named [key] among the options, the call of the
    adapter is a [TypeError] for every dataset and world: [_load] raises it
    once the load path is resolved, [_save] once the directory is made; the
    adapter is not reached, and [_save] leaves the directories it made. *)
Theorem duplicate_key_is_a_type_error (self : HDFLocalDataSet) :
  (forall w load_path w1,
      is_Some (_load_args self !! "key") ->
      _get_load_path self w = (Ok load_path, w1) ->
      _load self w
      = (Raise (TypeError
                  "read_hdf() got multiple values for keyword argument 'key'"),
         w1))
  /\ (forall data w save_path w1 w2,
        is_Some (_save_args self !! "key") ->
        _get_save_path self w = (Ok save_path, w1) ->
        Path_mkdir (parent save_path) w1 = (Ok tt, w2) ->
        _save self data w
        = (Raise (TypeError
                    "to_hdf() got multiple values for keyword argument 'key'"),
           w2)).
Proof.
  split.
  - intros w lp w1 [v Hv] Hg. unfold _load, bind. rewrite Hg.
    unfold call_with_key. by rewrite Hv.
  - intros data w sp w1 w2 [v Hv] Hg Hm. unfold _save, bind at 1. rewrite Hg.
    unfold bind at 1. rewrite Hm. unfold bind at 1, call_with_key.
    by rewrite Hv.
Qed.

(** X13.  [_exists] turns only the [DataSetError] of the path resolution into
    [False]: any other exception of [_get_load_path] propagates, and so does
    an exception of opening the store or listing its keys.  A load path that
    is not a file gives [False] without the store being opened, and so does a
    store without the key. *)
Theorem exists_other_outcomes (self : HDFLocalDataSet) (w : @World B) :
  (forall e w',
      _get_load_path self w = (Raise e, w') ->
      isinstance e "DataSetError" = false ->
      _exists self w = (Raise e, w'))
  /\ (forall path w1,
        _get_load_path self w = (Ok path, w1) ->
        is_file (fs w1) (fs_key w1 path) = false ->
        _exists self w = (Ok false, w1))
  /\ (forall path w1 e w',
        _get_load_path self w = (Ok path, w1) ->
        is_file (fs w1) (fs_key w1 path) = true ->
        HDFStore_keys path w1 = (Raise e, w') ->
        _exists self w = (Raise e, w'))
  /\ (forall path w1 keys w',
        _get_load_path self w = (Ok path, w1) ->
        is_file (fs w1) (fs_key w1 path) = true ->
        HDFStore_keys path w1 = (Ok keys, w') ->
        key_with_slash self ∉ keys ->
        _exists self w = (Ok false, w')).
Proof.
  split; [|split; [|split]].
  - intros e w' Hg He. unfold _exists, bind, try_except. by rewrite Hg, He.
  - intros path w1 Hg Hf.
    unfold _exists, bind at 1, try_except, bind at 1. rewrite Hg.
    unfold ret at 1. unfold bind, Path_is_file. by rewrite Hf.
  - intros path w1 e w' Hg Hf Hk.
    unfold _exists, bind at 1, try_except, bind at 1. rewrite Hg.
    unfold ret at 1. unfold bind, Path_is_file. by rewrite Hf, Hk.
  - intros path w1 keys w' Hg Hf Hk Hin.
    unfold _exists, bind at 1, try_except, bind at 1. rewrite Hg.
    unfold ret at 1. unfold bind, Path_is_file. rewrite Hf, Hk.
    by rewrite bool_decide_eq_false_2.
Qed.

End More.

(** X14.  The key [_exists] looks for always starts with a slash, and the
    dataset whose key is that key looks for the same one: a key given with
    or without its leading slash names the same entry of the store. *)
Theorem key_with_slash_is_normal (self : HDFLocalDataSet) :
  startswith (key_with_slash self) "/" = true
  /\ key_with_slash (with_key (key_with_slash self) self) = key_with_slash self
  /\ key_with_slash (with_key ("/" ++ _key self)%string self)
     = ("/" ++ _key self)%string.
Proof.
  assert (forall k, startswith ("/" ++ k)%string "/" = true) as Hslash.
  { intros k. unfold startswith. by destruct k. }
  assert (startswith (key_with_slash self) "/" = true) as Hstart.
  { unfold key_with_slash.
    destruct (startswith (_key self) "/") eqn:Hs; [done|apply Hslash]. }
  assert (forall k, key_with_slash (with_key k self)
                    = if startswith k "/" then k else ("/" ++ k)%string) as Hk
      by reflexivity.
  split; [done|split]; rewrite Hk.
  - by rewrite Hstart.
  - by rewrite Hslash.
Qed.

(** X15.  [_describe] of the dataset [__init__] makes reports what the
    constructor was given and nothing else: the parsed path, the key and the
    version as given, and the two option mappings as given, with the empty
    mapping (not [None]) for options that were not given. *)
Theorem describe_reports_constructor_arguments (filepath key : string)
    (load_args save_args : option (gmap string value))
    (version : option Version) :
  let d := _describe (__init__ filepath key load_args save_args version) in
  d !! "filepath" = Some (DPath (Path_of_str filepath))
  /\ d !! "key" = Some (DStr key)
  /\ d !! "load_args" = Some (DDict (default ∅ load_args))
  /\ d !! "save_args" = Some (DDict (default ∅ save_args))
  /\ d !! "version" = Some (DVersion version)
  /\ dom d = {["filepath"; "key"; "load_args"; "save_args"; "version"]}.
Proof.
  intros d. unfold d, _describe, __init__, dict_merge. simpl.
  assert (forall o : option (gmap string value),
             match o with Some a => a ∪ ∅ | None => ∅ end = default ∅ o) as Hd.
  { intros [a|]; simpl; [apply (right_id ∅ (∪))|done]. }
  rewrite !Hd.
  split; [by simplify_map_eq|].
  split; [by simplify_map_eq|].
  split; [by simplify_map_eq|].
  split; [by simplify_map_eq|].
  split; [by simplify_map_eq|].
  rewrite !dom_insert_L, dom_empty_L. set_solver.
Qed.

(** ** The theorems at work *)

Lemma blocked_disk_tree : tree (fs blocked_disk).
Proof.
  intros k nd. destruct k as [|x k]; [done|].
  unfold lookup_node at 1. unfold blocked_disk at 1. simpl fs.
  intros [Hk _]%lookup_singleton_Some.
  by injection Hk as <- <-.
Qed.

Lemma mkdir_again_changes_nothing_witness :
  exists w2,
    @Path_mkdir (list string) (parent v1) empty_disk = (Ok tt, w2)
    /\ Path_mkdir (parent v1) w2 = (Ok tt, w2).
Proof.
  eexists. split; [reflexivity|].
  apply (mkdir_again_changes_nothing (parent v1) empty_disk). reflexivity.
Defined.

Lemma mkdir_only_adds_ancestors_witness :
  lookup_node (fs empty_disk) ["data"; "test.hdf"] = None
  /\ lookup_node (fs (snd (@Path_mkdir (list string) (parent v1) empty_disk)))
       ["data"; "test.hdf"] = Some Dir
  /\ exists n, ["data"; "test.hdf"] = take n (parts (parent v1)).
Proof.
  assert (".." ∉ @fs_key (list string) empty_disk (parent v1)) as Hplain.
  { apply (proj1 (bool_decide_eq_false _)). vm_compute. reflexivity. }
  destruct (mkdir_only_adds_ancestors (parent v1) empty_disk
              (snd (@Path_mkdir (list string) (parent v1) empty_disk))
              Hplain eq_refl) as (_ & _ & Hadds).
  apply (Hadds ["data"; "test.hdf"]).
  intros Heq. vm_compute in Heq. discriminate Heq.
Defined.

Lemma save_blocked_by_file_witness :
  exists e,
    @_save _ (resolving (Ok v1) v1) pandas data_set a_frame blocked_disk
    = (Raise e, blocked_disk)
    /\ isinstance e "OSError" = true
    /\ (e = FileExistsError "File exists"
        \/ e = NotADirectoryError "Not a directory").
Proof.
  apply (@save_blocked_by_file _ (resolving (Ok v1) v1) pandas data_set a_frame
           blocked_disk blocked_disk v1 1 eq_refl blocked_disk_tree).
  reflexivity.
Defined.

Lemma duplicate_key_is_a_type_error_witness :
  @_load _ (resolving (Ok v1) v1) pandas keyed_data_set empty_disk
  = (Raise (TypeError
              "read_hdf() got multiple values for keyword argument 'key'"),
     empty_disk)
  /\ ext (snd (@_save _ (resolving (Ok v1) v1) pandas keyed_data_set a_frame
                 empty_disk)) = [].
Proof.
  destruct (@duplicate_key_is_a_type_error _ (resolving (Ok v1) v1) pandas
              keyed_data_set) as [Hl Hs].
  split.
  - apply (Hl empty_disk v1 empty_disk); [|reflexivity].
    eexists. reflexivity.
  - rewrite (Hs a_frame empty_disk v1 empty_disk
               (snd (@Path_mkdir (list string) (parent v1) empty_disk)));
      [reflexivity| |reflexivity|reflexivity].
    eexists. reflexivity.
Defined.

Lemma exists_other_outcomes_witness :
  @_exists _ (resolving (Raise PermissionError) v1) pandas data_set empty_disk
  = (Raise PermissionError, empty_disk)
  /\ @_exists _ (resolving (Ok v1) v1) pandas data_set empty_disk
     = (Ok false, empty_disk).
Proof.
  split.
  - exact (proj1 (@exists_other_outcomes _ (resolving (Raise PermissionError) v1)
                    pandas data_set empty_disk)
             PermissionError empty_disk eq_refl eq_refl).
  - exact (proj1 (proj2 (@exists_other_outcomes _ (resolving (Ok v1) v1)
                           pandas data_set empty_disk))
             v1 empty_disk eq_refl eq_refl).
Defined.

End HDFLocalMore.
